(** * tools_webrtc/configure_pipewire.py

    A shallow embedding of the PipeWire launcher script and the properties
    its specification states about it.

    The script computes an installation directory from its own location,
    overlays nine variables onto [os.environ], starts the two helper
    daemons, runs the command given on its command line, asks the
    helpers to terminate and returns the command's exit status.

    Python [str] values are [string]s, [os.environ] is a finite map from
    names to values, and the effects of the script (environment writes,
    printing, process creation, waiting and signalling) are threaded
    through an explicit state-and-exception monad.  What the operating
    system decides (which directories exist, which programs can be
    executed, what a child exits with) is a parameter of the model. *)

From Stdlib Require Import ZArith String Ascii List Bool Lia.
From stdpp Require Import base gmap strings list fin_maps.

Local Open Scope string_scope.
Local Open Scope Z_scope.

(** ** posixpath *)

Module PosixPath.

Definition sep : ascii := "/"%char.

(** [s.startswith('/')] *)
Definition startswith_sep (s : string) : bool :=
  match s with
  | EmptyString => false
  | String c _ => Ascii.eqb c sep
  end.

(** [s.endswith('/')] *)
Fixpoint endswith_sep (s : string) : bool :=
  match s with
  | EmptyString => false
  | String c EmptyString => Ascii.eqb c sep
  | String _ r => endswith_sep r
  end.

(** [not s] on a [str] *)
Definition is_empty (s : string) : bool :=
  match s with
  | EmptyString => true
  | String _ _ => false
  end.

(** One round of the loop of [posixpath.join]:
<<
      if b.startswith(sep):            path = b
      elif not path or path.endswith(sep): path += b
      else:                            path += sep + b
>> *)
Definition join_step (path b : string) : string :=
  if startswith_sep b then b
  else if is_empty path || endswith_sep path then path +:+ b
  else path +:+ String sep b.

(** [os.path.join(a, *p)] *)
Definition join (a : string) (p : list string) : string :=
  fold_left join_step p a.

(** [s.rfind(c)], with Python's [-1] when [c] does not occur. *)
Fixpoint rfind (c : ascii) (s : string) : Z :=
  match s with
  | EmptyString => -1
  | String a r =>
      let i := rfind c r in
      if 0 <=? i then i + 1
      else if Ascii.eqb a c then 0 else -1
  end.

(** [c * n] *)
Fixpoint str_mul (c : ascii) (n : nat) : string :=
  match n with
  | O => EmptyString
  | S n' => String c (str_mul c n')
  end.

(** [s.rstrip(c)] *)
Fixpoint rstrip (c : ascii) (s : string) : string :=
  match s with
  | EmptyString => EmptyString
  | String a r =>
      let r' := rstrip c r in
      if Ascii.eqb a c && is_empty r' then EmptyString else String a r'
  end.

(** [os.path.dirname(p)]:
<<
      i = p.rfind(sep) + 1
      head = p[:i]
      if head and head != sep*len(head):
          head = head.rstrip(sep)
      return head
>> *)
Definition dirname (p : string) : string :=
  let i := rfind sep p + 1 in
  let head := String.substring 0 (Z.to_nat i) p in
  if negb (is_empty head)
     && negb (String.eqb head (str_mul sep (String.length head)))
  then rstrip sep head
  else head.

(** A string made of separators only (the empty string included). *)
Fixpoint all_sep (s : string) : bool :=
  match s with
  | EmptyString => true
  | String c r => Ascii.eqb c sep && all_sep r
  end.

(** A string in which the separator does not occur. *)
Fixpoint no_sep (s : string) : bool :=
  match s with
  | EmptyString => true
  | String c r => negb (Ascii.eqb c sep) && no_sep r
  end.

End PosixPath.

(** ** The interpreter state and its effects *)

(** Exceptions the script can let escape. *)
Inductive exn : Type :=
  | KeyError (key : string)            (* os.environ[key] on a missing key *)
  | IndexError                         (* args[0] on an empty argument list *)
  | FileNotFoundError (prog : string). (* the program could not be executed *)

Inductive result (A : Type) : Type :=
  | Ok (a : A)
  | Raise (e : exn).
Arguments Ok {A} a.
Arguments Raise {A} e.

(** Signals a [Popen] object can send: [terminate()] sends [SIGTERM],
    [kill()] sends [SIGKILL]. *)
Inductive signal : Type := SIGTERM | SIGKILL.

(** The [stdout] argument of [Popen] when it is not [None]. *)
Inductive redirect : Type :=
  | PIPE
  | DEVNULL
  | Fd (n : Z).

(** What the script does to the outside world, in program order. *)
Inductive event : Type :=
  | Print (line : string)
  | Spawn (pid : nat) (args : list string) (stdout : option redirect)
          (env : gmap string string)
  | Wait (pid : nat) (status : Z)
  | Signal (pid : nat) (sig : signal).

(** The part of the machine the script depends on but does not control. *)
Record host : Type := {
  script_file : string;                     (* __file__ *)
  argv : list string;                       (* sys.argv *)
  realpath : string -> string;              (* os.path.realpath *)
  isdir : string -> bool;                   (* os.path.isdir *)
  (* does fork/exec of this argument list succeed in this environment? *)
  can_exec : list string -> gmap string string -> bool;
  (* the return code the child is reaped with *)
  exit_status : list string -> gmap string string -> Z
}.

(** The state of the running interpreter. *)
Record process : Type := {
  environ : gmap string string;  (* os.environ *)
  trace : list event;            (* effects so far, oldest first *)
  children : nat                 (* number of children created so far *)
}.

Definition Py (A : Type) : Type := process -> result A * process.

(** [Py] is a monad: [mret] is a normal return, [≫=] runs the second
    statement only when the first did not raise; the state reached at a
    [raise] is kept, as the mutations of a Python program are. *)
#[export] Instance py_ret : MRet Py := fun A a s => (Ok a, s).

#[export] Instance py_bind : MBind Py := fun A B k m s =>
  match m s with
  | (Ok a, s') => k a s'
  | (Raise e, s') => (Raise e, s')
  end.

Definition emit (e : event) : Py unit :=
  fun s => (Ok tt, {| environ := environ s;
                      trace := trace s ++ [e];
                      children := children s |}).

(** [os.environ[key] = value] *)
Definition setenv (key value : string) : Py unit :=
  fun s => (Ok tt, {| environ := <[key := value]> (environ s);
                      trace := trace s;
                      children := children s |}).

(** [os.environ[key]] *)
Definition getenv (key : string) : Py string :=
  fun s =>
    match environ s !! key with
    | Some v => (Ok v, s)
    | None => (Raise (KeyError key), s)
    end.

(** [print(line)] *)
Definition print (line : string) : Py unit := emit (Print line).

Section Subprocess.

Variable h : host.

(** [subprocess.Popen(args, stdout=stdout)]: the child gets a copy of
    the environment as it is at this moment; the handle returned is the
    child's identity. *)
Definition Popen (args : list string) (stdout : option redirect) : Py nat :=
  fun s =>
    match args with
    | [] => (Raise IndexError, s)
    | prog :: _ =>
        if can_exec h args (environ s) then
          let pid := children s in
          (Ok pid, {| environ := environ s;
                      trace := trace s ++ [Spawn pid args stdout (environ s)];
                      children := S pid |})
        else (Raise (FileNotFoundError prog), s)
    end.

(** [p.wait()] for the child started with [args] in [env]. *)
Definition wait (pid : nat) (args : list string) (env : gmap string string)
  : Py Z :=
  let status := exit_status h args env in
  emit (Wait pid status) ;; mret status.

(** [subprocess.call(args)]: [Popen(args)] followed by [wait()]. *)
Definition call (args : list string) : Py Z :=
  fun s => (p ← Popen args None; wait p args (environ s)) s.

(** [p.terminate()]: the request to stop, [SIGTERM] (the operating system
    delivers it unless the child is already gone). *)
Definition terminate (pid : nat) : Py unit := emit (Signal pid SIGTERM).

(** [p.kill()]: the forceful variant, [SIGKILL]; the script never calls
    it. *)
Definition kill (pid : nat) : Py unit := emit (Signal pid SIGKILL).

End Subprocess.

(** ** The script *)

Section Script.

Variable h : host.

Definition _get_pipewire_dir : string :=
  let script_dir := PosixPath.dirname (realpath h (script_file h)) in
  let src_dir := PosixPath.dirname script_dir in
  let pipewire_dir :=
    PosixPath.join src_dir ["third_party"; "pipewire"; "linux-amd64"] in
  pipewire_dir.

Definition _configure_pipewire_paths (path : string) : Py unit :=
  let library_dir := PosixPath.join path ["lib64"] in
  let pipewire_binary_dir := PosixPath.join path ["bin"] in
  let pipewire_config_prefix := PosixPath.join path ["share"; "pipewire"] in
  let pipewire_module_dir := PosixPath.join library_dir ["pipewire-0.3"] in
  let spa_plugin_dir := PosixPath.join library_dir ["spa-0.2"] in
  let wireplumber_config_dir := PosixPath.join path ["share"; "wireplumber"] in
  let wireplumber_data_dir := PosixPath.join path ["share"; "wireplumber"] in
  let wireplumber_module_dir := PosixPath.join library_dir ["wireplumber-0.5"] in
  setenv "LD_LIBRARY_PATH" library_dir ;;
  setenv "PIPEWIRE_CONFIG_PREFIX" pipewire_config_prefix ;;
  setenv "PIPEWIRE_MODULE_DIR" pipewire_module_dir ;;
  setenv "SPA_PLUGIN_DIR" spa_plugin_dir ;;
  setenv "PIPEWIRE_RUNTIME_DIR" "/tmp" ;;
  old_path ← getenv "PATH";
  setenv "PATH" (old_path +:+ ":" +:+ pipewire_binary_dir) ;;
  setenv "WIREPLUMBER_CONFIG_DIR" wireplumber_config_dir ;;
  setenv "WIREPLUMBER_DATA_DIR" wireplumber_data_dir ;;
  setenv "WIREPLUMBER_MODULE_DIR" wireplumber_module_dir.

Definition main : Py Z :=
  let pipewire_dir := _get_pipewire_dir in
  if negb (isdir h pipewire_dir) then
    print ("configure-pipewire: Couldn't find directory " +:+ pipewire_dir) ;;
    mret 1
  else
    _configure_pipewire_paths pipewire_dir ;;
    pipewire_process ← Popen h ["pipewire"] None;
    wireplumber_process ← Popen h ["wireplumber"] None;
    return_value ← call h (drop 1 (argv h));
    terminate wireplumber_process ;;
    terminate pipewire_process ;;
    mret return_value.

End Script.

(** The interpreter as the script finds it: an inherited environment, no
    effects yet, no children. *)
Definition start (env : gmap string string) : process :=
  {| environ := env; trace := []; children := 0 |}.

(** ** Auxiliary definitions used in the statements *)

Section Overlay.

Import PosixPath.

(** The environment after the five assignments that precede the read
    of [PATH]. *)
Definition before_path (path : string) (env : gmap string string)
  : gmap string string :=
  <["PIPEWIRE_RUNTIME_DIR" := "/tmp"]>
    (<["SPA_PLUGIN_DIR" := join (join path ["lib64"]) ["spa-0.2"]]>
       (<["PIPEWIRE_MODULE_DIR" := join (join path ["lib64"]) ["pipewire-0.3"]]>
          (<["PIPEWIRE_CONFIG_PREFIX" := join path ["share"; "pipewire"]]>
             (<["LD_LIBRARY_PATH" := join path ["lib64"]]> env)))).

(** The environment after all nine assignments. *)
Definition after_all (path old_path : string) (env : gmap string string)
  : gmap string string :=
  <["WIREPLUMBER_MODULE_DIR" := join (join path ["lib64"]) ["wireplumber-0.5"]]>
    (<["WIREPLUMBER_DATA_DIR" := join path ["share"; "wireplumber"]]>
       (<["WIREPLUMBER_CONFIG_DIR" := join path ["share"; "wireplumber"]]>
          (<["PATH" := old_path +:+ ":" +:+ join path ["bin"]]>
             (before_path path env)))).

End Overlay.

(** The nine variables of the environment table. *)
Definition config_keys : list string :=
  ["LD_LIBRARY_PATH"; "PIPEWIRE_CONFIG_PREFIX"; "PIPEWIRE_MODULE_DIR";
   "SPA_PLUGIN_DIR"; "PIPEWIRE_RUNTIME_DIR"; "PATH";
   "WIREPLUMBER_CONFIG_DIR"; "WIREPLUMBER_DATA_DIR"; "WIREPLUMBER_MODULE_DIR"].

(** The environment the children of a run inherit: the inherited one
    with the overlay of the configure operation. *)
Definition launch_env (h : host) (old_path : string) (env : gmap string string)
  : gmap string string :=
  after_all (_get_pipewire_dir h) old_path env.

(** A machine to run the script on: the checkout is in [/src], the
    installation directory exists, every program can be executed, and the
    command given on the command line exits with status 3. *)
Definition demo_host : host :=
  {| script_file := "tools_webrtc/configure_pipewire.py";
     argv := ["configure_pipewire.py"; "run_tests"; "--fast"];
     realpath := fun p => "/src/" +:+ p;
     isdir := fun p => String.eqb p "/src/third_party/pipewire/linux-amd64";
     can_exec := fun _ _ => true;
     exit_status := fun _ _ => 3 |}.

(** The same machine without the installation directory. *)
Definition bare_host : host :=
  {| script_file := script_file demo_host;
     argv := argv demo_host;
     realpath := realpath demo_host;
     isdir := fun _ => false;
     can_exec := can_exec demo_host;
     exit_status := exit_status demo_host |}.

(** An inherited environment with a search path, and one without. *)
Definition demo_env : gmap string string :=
  <["HOME" := "/home/dev"]> {["PATH" := "/usr/bin"]}.

Definition no_path_env : gmap string string :=
  {["HOME" := "/home/dev"]}.

(** The last two lines of the script,
<<
      if __name__ == '__main__':
          sys.exit(main())
>>
    as the status the interpreter process ends with: [sys.exit(v)] ends it
    with the low eight bits of the integer [v] (return codes are C ints,
    a child killed by signal [k] has return code [-k]); an exception that
    escapes [main] is reported on standard error and ends it with
    status 1. *)
Definition run_as_main (h : host) (s : process) : Z * process :=
  match main h s with
  | (Ok v, s') => (v mod 256, s')
  | (Raise _, s') => (1, s')
  end.

(** [for _ in range(n): m()] *)
Fixpoint repeat_call (n : nat) (m : Py unit) : Py unit :=
  match n with
  | O => mret tt
  | S n' => m ;; repeat_call n' m
  end.

(** [seg * n] *)
Fixpoint segments (n : nat) (seg : string) : string :=
  match n with
  | O => ""
  | S n' => seg +:+ segments n' seg
  end.

(** Variants of the machine above: one on which wireplumber cannot be
    executed, one whose command line names no command, one whose command
    is killed by signal 9. *)
Definition no_wireplumber_host : host :=
  {| script_file := script_file demo_host;
     argv := argv demo_host;
     realpath := realpath demo_host;
     isdir := isdir demo_host;
     can_exec := fun args _ =>
                   match args with
                   | prog :: _ => negb (String.eqb prog "wireplumber")
                   | [] => false
                   end;
     exit_status := exit_status demo_host |}.

Definition no_command_host : host :=
  {| script_file := script_file demo_host;
     argv := ["configure_pipewire.py"];
     realpath := realpath demo_host;
     isdir := isdir demo_host;
     can_exec := can_exec demo_host;
     exit_status := exit_status demo_host |}.

Definition killed_host : host :=
  {| script_file := script_file demo_host;
     argv := argv demo_host;
     realpath := realpath demo_host;
     isdir := isdir demo_host;
     can_exec := can_exec demo_host;
     exit_status := fun _ _ => -9 |}.

(** ** Evaluating the path functions *)

Example join_plain : PosixPath.join "/opt/pw" ["lib64"] = "/opt/pw/lib64".
Proof. reflexivity. Qed.

Example join_trailing : PosixPath.join "/opt/pw/" ["share"; "pipewire"] = "/opt/pw/share/pipewire".
Proof. reflexivity. Qed.

Example join_empty : PosixPath.join "" ["bin"] = "bin".
Proof. reflexivity. Qed.

Example dirname_file : PosixPath.dirname "/src/tools_webrtc/configure_pipewire.py" = "/src/tools_webrtc".
Proof. reflexivity. Qed.

Example dirname_top : PosixPath.dirname "/configure_pipewire.py" = "/".
Proof. reflexivity. Qed.

Example dirname_root : PosixPath.dirname "/" = "/".
Proof. reflexivity. Qed.

Example dirname_relative : PosixPath.dirname "launcher" = "".
Proof. reflexivity. Qed.

Example dirname_slashes : PosixPath.dirname "/a//b" = "/a".
Proof. reflexivity. Qed.

(** ** Running the script *)

Example main_demo_status : fst (main demo_host (start demo_env)) = Ok 3.
Proof. vm_compute. reflexivity. Qed.

Example main_demo_path :
  environ (snd (main demo_host (start demo_env))) !! "PATH"
  = Some "/usr/bin:/src/third_party/pipewire/linux-amd64/bin".
Proof. vm_compute. reflexivity. Qed.

Example main_bare_status : fst (main bare_host (start demo_env)) = Ok 1.
Proof. vm_compute. reflexivity. Qed.

Example main_no_path_raises :
  fst (main demo_host (start no_path_env)) = Raise (KeyError "PATH").
Proof. vm_compute. reflexivity. Qed.

(** ** Facts about strings and paths *)

(** stdpp keeps [+:+] from unfolding under [simpl]; its two equations
    are used as rewrite rules instead. *)
Lemma append_nil (b : string) : "" +:+ b = b.
Proof. reflexivity. Qed.

Lemma append_cons (x : ascii) (a b : string) :
  String x a +:+ b = String x (a +:+ b).
Proof. reflexivity. Qed.

Ltac app_norm := rewrite ?append_cons, ?append_nil.

Section PathFacts.

Import PosixPath.

Lemma append_assoc (a b c : string) : (a +:+ b) +:+ c = a +:+ (b +:+ c).
Proof.
  induction a as [|x a IH]; app_norm; [reflexivity | now rewrite IH].
Qed.

Lemma string_length_append (a b : string) :
  String.length (a +:+ b) = (String.length a + String.length b)%nat.
Proof.
  induction a as [|x a IH]; app_norm; [reflexivity |].
  cbn [String.length]. now rewrite IH.
Qed.

Lemma is_empty_append (a b : string) :
  is_empty (a +:+ b) = is_empty a && is_empty b.
Proof. destruct a; reflexivity. Qed.

Lemma is_empty_true (a : string) : is_empty a = true -> a = "".
Proof. destruct a; [reflexivity | discriminate]. Qed.

Lemma endswith_sep_cons (c : ascii) (r : string) :
  is_empty r = false -> endswith_sep (String c r) = endswith_sep r.
Proof. destruct r; [discriminate | reflexivity]. Qed.

Lemma endswith_sep_append (a b : string) :
  is_empty b = false -> endswith_sep (a +:+ b) = endswith_sep b.
Proof.
  intros Hb. induction a as [|x a IH]; app_norm; [reflexivity |].
  rewrite <- IH. apply endswith_sep_cons.
  rewrite is_empty_append, Hb. apply andb_false_r.
Qed.

(** A root that is not empty and has no trailing separator gets one
    separator between it and the component joined to it. *)
Lemma join_step_plain (path b : string) :
  is_empty path = false -> endswith_sep path = false ->
  startswith_sep b = false ->
  join_step path b = path +:+ String sep b.
Proof. intros H1 H2 H3. unfold join_step. now rewrite H1, H2, H3. Qed.

(** Joining a component that is not empty and does not end in a
    separator gives a path that is not empty and does not end in one. *)
Lemma join_step_keeps (path b : string) :
  is_empty b = false -> endswith_sep b = false ->
  is_empty (join_step path b) = false
  /\ endswith_sep (join_step path b) = false.
Proof.
  intros H1 H2. unfold join_step.
  destruct (startswith_sep b); [now split |].
  destruct (is_empty path || endswith_sep path); split.
  - rewrite is_empty_append, H1. apply andb_false_r.
  - now rewrite endswith_sep_append.
  - rewrite is_empty_append. apply andb_false_r.
  - rewrite endswith_sep_append by reflexivity.
    now rewrite endswith_sep_cons.
Qed.

Lemma rfind_no_sep (s : string) : no_sep s = true -> rfind sep s = -1.
Proof.
  induction s as [|c s IH]; [reflexivity |].
  cbn [no_sep rfind]. intros H. apply andb_prop in H as [Hc Hs].
  rewrite (IH Hs). apply negb_true_iff in Hc. rewrite Hc. reflexivity.
Qed.

Lemma rfind_child (d s : string) :
  no_sep s = true ->
  rfind sep (d +:+ String sep s) = Z.of_nat (String.length d).
Proof.
  intros Hs. induction d as [|c d IH]; app_norm.
  - cbn [rfind]. rewrite (rfind_no_sep s Hs), Ascii.eqb_refl. reflexivity.
  - cbn [rfind String.length]. rewrite IH.
    destruct (0 <=? Z.of_nat (String.length d)) eqn:E; [lia |].
    apply Z.leb_gt in E. lia.
Qed.

Lemma substring_zero (s : string) : String.substring 0 0 s = "".
Proof. destruct s; reflexivity. Qed.

Lemma substring_append (d t : string) (n : nat) :
  String.substring 0 (String.length d + n) (d +:+ t)
  = d +:+ String.substring 0 n t.
Proof.
  induction d as [|c d IH]; app_norm; [reflexivity |].
  cbn [String.length Nat.add String.substring]. now rewrite IH.
Qed.

Lemma eqb_str_mul (t : string) :
  String.eqb t (str_mul sep (String.length t)) = all_sep t.
Proof.
  induction t as [|c t IH]; [reflexivity |].
  cbn [String.length str_mul String.eqb all_sep]. rewrite IH.
  destruct (Ascii.eqb c sep); reflexivity.
Qed.

Lemma all_sep_append (a b : string) :
  all_sep (a +:+ b) = all_sep a && all_sep b.
Proof.
  induction a as [|c a IH]; app_norm; [reflexivity |].
  cbn [all_sep]. rewrite IH. apply andb_assoc.
Qed.

Lemma rstrip_append_sep (d : string) :
  rstrip sep (d +:+ String sep "") = rstrip sep d.
Proof.
  induction d as [|c d IH]; app_norm; [reflexivity |].
  cbn [rstrip]. now rewrite IH.
Qed.

Lemma rstrip_id (d : string) : endswith_sep d = false -> rstrip sep d = d.
Proof.
  induction d as [|c d IH]; [reflexivity |].
  destruct d as [|c' d'].
  - cbn. intros ->. reflexivity.
  - intros H. rewrite endswith_sep_cons in H by reflexivity.
    change (rstrip sep (String c (String c' d')))
      with (let r' := rstrip sep (String c' d') in
            if Ascii.eqb c sep && is_empty r' then "" else String c r').
    rewrite (IH H). cbn. now rewrite andb_false_r.
Qed.

Lemma all_sep_endswith (d : string) :
  is_empty d = false -> endswith_sep d = false -> all_sep d = false.
Proof.
  induction d as [|c d IH]; [discriminate |]. intros _.
  destruct d as [|c' d'].
  - cbn. intros ->. reflexivity.
  - intros H. rewrite endswith_sep_cons in H by reflexivity.
    change (all_sep (String c (String c' d')))
      with (Ascii.eqb c sep && all_sep (String c' d')).
    rewrite (IH eq_refl H). apply andb_false_r.
Qed.

(** [dirname] of an entry directly below [d]. *)
Lemma dirname_child (d s : string) :
  no_sep s = true ->
  dirname (d +:+ String sep s)
  = if all_sep d then d +:+ String sep "" else rstrip sep d.
Proof.
  intros Hs. unfold dirname.
  rewrite (rfind_child d s Hs).
  replace (Z.to_nat (Z.of_nat (String.length d) + 1))
    with (String.length d + 1)%nat by lia.
  rewrite substring_append. cbn [String.substring]. rewrite substring_zero.
  rewrite eqb_str_mul, all_sep_append, is_empty_append.
  cbn [all_sep is_empty]. rewrite Ascii.eqb_refl, andb_false_r, !andb_true_r.
  cbn [negb andb].
  destruct (all_sep d); cbn [negb]; [reflexivity | apply rstrip_append_sep].
Qed.

Lemma dirname_no_sep (s : string) : no_sep s = true -> dirname s = "".
Proof.
  intros Hs. unfold dirname. rewrite (rfind_no_sep s Hs).
  change (Z.to_nat (-1 + 1)) with 0%nat. now rewrite substring_zero.
Qed.

Lemma no_sep_startswith (s : string) :
  no_sep s = true -> startswith_sep s = false.
Proof.
  destruct s as [|c s]; [reflexivity |]. cbn.
  intros H. apply andb_prop in H as [H _]. now apply negb_true_iff in H.
Qed.

Lemma all_sep_split (d : string) :
  all_sep d = true -> is_empty d = false ->
  exists d0, d = d0 +:+ String sep "" /\ all_sep d0 = true.
Proof.
  induction d as [|c d IH]; [discriminate |]. intros H _.
  cbn [all_sep] in H. apply andb_prop in H as [Hc Hd].
  apply Ascii.eqb_eq in Hc. subst c.
  destruct d as [|c' d'].
  - exists "". split; reflexivity.
  - destruct (IH Hd eq_refl) as (d0 & E & A0).
    exists (String sep d0). split.
    + app_norm. now rewrite <- E.
    + cbn [all_sep]. now rewrite Ascii.eqb_refl.
Qed.

(** The directory containing [join d [s]] is [d] again, for every
    directory name [d] written without a trailing separator (or made of
    separators only, as the root directory is). *)
Lemma dirname_join (d s : string) :
  no_sep s = true ->
  endswith_sep d = false \/ all_sep d = true ->
  dirname (join d [s]) = d.
Proof.
  intros Hs Hd. unfold join. cbn [fold_left]. unfold join_step.
  rewrite (no_sep_startswith s Hs).
  destruct (is_empty d) eqn:Ee.
  - apply is_empty_true in Ee. subst d. cbn [orb]. app_norm.
    now apply dirname_no_sep.
  - cbn [orb]. destruct (endswith_sep d) eqn:Es.
    + destruct Hd as [Hd | Hd]; [discriminate |].
      destruct (all_sep_split d Hd Ee) as (d0 & -> & A0).
      rewrite append_assoc. app_norm.
      rewrite (dirname_child d0 s Hs), A0. reflexivity.
    + rewrite (dirname_child d s Hs).
      rewrite (all_sep_endswith d Ee Es). now apply rstrip_id.
Qed.

End PathFacts.

(** ** The configure operation, step by step *)

Section ConfigureFacts.

Import PosixPath.

Lemma before_path_PATH (path : string) (env : gmap string string) :
  before_path path env !! "PATH" = env !! "PATH".
Proof. unfold before_path. now rewrite !lookup_insert_ne by discriminate. Qed.

Lemma configure_ok (path old_path : string) (s : process) :
  environ s !! "PATH" = Some old_path ->
  _configure_pipewire_paths path s
  = (Ok tt, {| environ := after_all path old_path (environ s);
               trace := trace s;
               children := children s |}).
Proof.
  intros HP. unfold _configure_pipewire_paths, mbind, py_bind, setenv, getenv.
  cbn [environ trace children].
  fold (before_path path (environ s)).
  rewrite before_path_PATH, HP. reflexivity.
Qed.

Lemma configure_raise (path : string) (s : process) :
  environ s !! "PATH" = None ->
  _configure_pipewire_paths path s
  = (Raise (KeyError "PATH"),
     {| environ := before_path path (environ s);
        trace := trace s;
        children := children s |}).
Proof.
  intros HP. unfold _configure_pipewire_paths, mbind, py_bind, setenv, getenv.
  cbn [environ trace children].
  fold (before_path path (environ s)).
  rewrite before_path_PATH, HP. reflexivity.
Qed.

End ConfigureFacts.

(** Lookups in an overlaid environment: [look] settles a lookup at a
    literal key, [by_cases] one at a variable key. *)
Ltac look :=
  unfold after_all, before_path;
  repeat first [ rewrite lookup_insert_eq
               | rewrite lookup_insert_ne by discriminate ].

Ltac by_cases :=
  unfold after_all, before_path;
  repeat (rewrite lookup_insert; case_decide; subst; try congruence).

Section ConfigureLookups.

Import PosixPath.

(** Keys outside the table are not touched by the first five
    assignments, nor by all nine. *)
Lemma before_path_other (path k : string) (env : gmap string string) :
  k ∉ config_keys -> before_path path env !! k = env !! k.
Proof.
  unfold config_keys. rewrite !not_elem_of_cons. intros H.
  unfold before_path. rewrite !lookup_insert_ne; [reflexivity | | | | |];
    intros E; subst k; tauto.
Qed.

Lemma after_all_other (path old k : string) (env : gmap string string) :
  k ∉ config_keys -> after_all path old env !! k = env !! k.
Proof.
  intros H. unfold after_all.
  pose proof H as H'. unfold config_keys in H'.
  rewrite !not_elem_of_cons in H'.
  rewrite !lookup_insert_ne; [now apply before_path_other | | | |];
    intros E; subst k; tauto.
Qed.

(** A second overlay with the same root changes [PATH] only. *)
Lemma after_all_again (path old old' k : string) (env : gmap string string) :
  k <> "PATH" ->
  after_all path old' (after_all path old env) !! k
  = after_all path old env !! k.
Proof. intros H. by_cases. Qed.

Lemma after_all_PATH (path old : string) (env : gmap string string) :
  after_all path old env !! "PATH" = Some (old +:+ ":" +:+ join path ["bin"]).
Proof. now look. Qed.

(** Joining two plain components under a root that is not empty and does
    not end in a separator. *)
Lemma join_plain_one (path a : string) :
  is_empty path = false -> endswith_sep path = false ->
  startswith_sep a = false ->
  join path [a] = path +:+ String sep a.
Proof. intros. now apply join_step_plain. Qed.

Lemma join_plain_two (path a b : string) :
  is_empty path = false -> endswith_sep path = false ->
  startswith_sep a = false -> is_empty a = false -> endswith_sep a = false ->
  startswith_sep b = false ->
  join path [a; b] = path +:+ String sep a +:+ String sep b.
Proof.
  intros H1 H2 H3 H4 H5 H6. unfold join. cbn [fold_left].
  destruct (join_step_keeps path a H4 H5) as [K1 K2].
  rewrite (join_step_plain _ b K1 K2 H6).
  rewrite (join_step_plain path a H1 H2 H3).
  rewrite append_assoc. now app_norm.
Qed.

End ConfigureLookups.

(** ** The runs of [main] *)

Section MainFacts.

Variable h : host.

Lemma main_missing (s : process) :
  isdir h (_get_pipewire_dir h) = false ->
  main h s
  = (Ok 1,
     {| environ := environ s;
        trace := trace s
                 ++ [Print ("configure-pipewire: Couldn't find directory "
                            +:+ _get_pipewire_dir h)];
        children := children s |}).
Proof. intros H. unfold main. rewrite H. reflexivity. Qed.

Lemma main_no_PATH (s : process) :
  isdir h (_get_pipewire_dir h) = true ->
  environ s !! "PATH" = None ->
  main h s
  = (Raise (KeyError "PATH"),
     {| environ := before_path (_get_pipewire_dir h) (environ s);
        trace := trace s;
        children := children s |}).
Proof.
  intros H HP. unfold main. rewrite H. cbn [negb].
  unfold mbind at 1, py_bind at 1. now rewrite configure_raise.
Qed.

(** The run of [main] after a successful configuration, written out:
    which of the three children can be executed decides where it
    stops. *)
Lemma main_configured (s : process) (old_path : string) :
  isdir h (_get_pipewire_dir h) = true ->
  environ s !! "PATH" = Some old_path ->
  let E := launch_env h old_path (environ s) in
  let n := children s in
  let cmd := drop 1 (argv h) in
  let A := Spawn n ["pipewire"] None E in
  let B := Spawn (S n) ["wireplumber"] None E in
  let C := Spawn (S (S n)) cmd None E in
  let rc := exit_status h cmd E in
  main h s
  = if can_exec h ["pipewire"] E then
      if can_exec h ["wireplumber"] E then
        match cmd with
        | [] => (Raise IndexError,
                 {| environ := E; trace := (trace s ++ [A]) ++ [B];
                    children := S (S n) |})
        | prog :: _ =>
            if can_exec h cmd E then
              (Ok rc,
               {| environ := E;
                  trace := (((((trace s ++ [A]) ++ [B]) ++ [C])
                             ++ [Wait (S (S n)) rc])
                            ++ [Signal (S n) SIGTERM])
                           ++ [Signal n SIGTERM];
                  children := S (S (S n)) |})
            else
              (Raise (FileNotFoundError prog),
               {| environ := E; trace := (trace s ++ [A]) ++ [B];
                  children := S (S n) |})
        end
      else
        (Raise (FileNotFoundError "wireplumber"),
         {| environ := E; trace := trace s ++ [A]; children := S n |})
    else
      (Raise (FileNotFoundError "pipewire"),
       {| environ := E; trace := trace s; children := n |}).
Proof.
  intros H HP E n cmd A B C rc. unfold main. rewrite H. cbn [negb].
  unfold mbind at 1, py_bind at 1. rewrite (configure_ok _ old_path s HP).
  fold (launch_env h old_path (environ s)). fold E.
  unfold mbind at 1, py_bind at 1, Popen at 1. cbn [environ trace children].
  destruct (can_exec h ["pipewire"] E); [| reflexivity].
  unfold mbind at 1, py_bind at 1, Popen at 1. cbn [environ trace children].
  destruct (can_exec h ["wireplumber"] E); [| reflexivity].
  unfold mbind at 1, py_bind at 1, call, mbind at 1, py_bind at 1, Popen.
  cbn [environ trace children]. fold cmd.
  destruct cmd as [|prog rest] eqn:Ecmd; [reflexivity |].
  destruct (can_exec h (prog :: rest) E); reflexivity.
Qed.

End MainFacts.

(** ** The configure operation *)

Section ConfigureProperties.

Import PosixPath.

(** C1: for every root [R], the configure operation run in an environment
    that has a [PATH] returns normally and leaves the nine variables of
    the table set: [LD_LIBRARY_PATH] to lib64 under [R],
    [PIPEWIRE_CONFIG_PREFIX] to share/pipewire under [R],
    [PIPEWIRE_MODULE_DIR] to lib64/pipewire-0.3 under [R], [SPA_PLUGIN_DIR]
    to lib64/spa-0.2 under [R], [PIPEWIRE_RUNTIME_DIR] to the constant
    [/tmp], [PATH] to the previous value followed by [:] and bin under
    [R], [WIREPLUMBER_CONFIG_DIR] and [WIREPLUMBER_DATA_DIR] both to
    share/wireplumber under [R], and [WIREPLUMBER_MODULE_DIR] to
    lib64/wireplumber-0.5 under [R].  "Under [R]" is [os.path.join]; for a
    root that is not empty and has no trailing separator (as every root
    [main] computes) these are the strings [R/lib64], [R/share/pipewire]
    and so on, character for character. *)
Theorem configure_sets_table (R old_path : string) (s : process) :
  environ s !! "PATH" = Some old_path ->
  exists s',
    _configure_pipewire_paths R s = (Ok tt, s')
    /\ (environ s' !! "LD_LIBRARY_PATH" = Some (join R ["lib64"])
        /\ environ s' !! "PIPEWIRE_CONFIG_PREFIX"
           = Some (join R ["share"; "pipewire"])
        /\ environ s' !! "PIPEWIRE_MODULE_DIR"
           = Some (join R ["lib64"; "pipewire-0.3"])
        /\ environ s' !! "SPA_PLUGIN_DIR" = Some (join R ["lib64"; "spa-0.2"])
        /\ environ s' !! "PIPEWIRE_RUNTIME_DIR" = Some "/tmp"
        /\ environ s' !! "PATH" = Some (old_path +:+ ":" +:+ join R ["bin"])
        /\ environ s' !! "WIREPLUMBER_CONFIG_DIR"
           = Some (join R ["share"; "wireplumber"])
        /\ environ s' !! "WIREPLUMBER_DATA_DIR"
           = environ s' !! "WIREPLUMBER_CONFIG_DIR"
        /\ environ s' !! "WIREPLUMBER_MODULE_DIR"
           = Some (join R ["lib64"; "wireplumber-0.5"]))
    /\ (is_empty R = false -> endswith_sep R = false ->
        environ s' !! "LD_LIBRARY_PATH" = Some (R +:+ "/lib64")
        /\ environ s' !! "PIPEWIRE_CONFIG_PREFIX"
           = Some (R +:+ "/share/pipewire")
        /\ environ s' !! "PIPEWIRE_MODULE_DIR"
           = Some (R +:+ "/lib64/pipewire-0.3")
        /\ environ s' !! "SPA_PLUGIN_DIR" = Some (R +:+ "/lib64/spa-0.2")
        /\ environ s' !! "PATH" = Some (old_path +:+ ":" +:+ R +:+ "/bin")
        /\ environ s' !! "WIREPLUMBER_CONFIG_DIR"
           = Some (R +:+ "/share/wireplumber")
        /\ environ s' !! "WIREPLUMBER_DATA_DIR"
           = Some (R +:+ "/share/wireplumber")
        /\ environ s' !! "WIREPLUMBER_MODULE_DIR"
           = Some (R +:+ "/lib64/wireplumber-0.5")).
Proof.
  intros HP. eexists. split; [apply (configure_ok R old_path s HP) |].
  cbn [environ].
  assert (Hjoin : forall a b, join (join R [a]) [b] = join R [a; b])
    by reflexivity.
  split.
  - repeat split; look; rewrite ?Hjoin; reflexivity.
  - intros He Hs.
    repeat split; look; rewrite ?Hjoin;
      first [ rewrite join_plain_one by (assumption || reflexivity)
            | rewrite join_plain_two by (assumption || reflexivity) ];
      reflexivity.
Qed.

Lemma configure_sets_table_witness :
  environ (start demo_env) !! "PATH" = Some "/usr/bin"
  /\ exists s',
       _configure_pipewire_paths "/opt/pw" (start demo_env) = (Ok tt, s')
       /\ environ s' !! "LD_LIBRARY_PATH" = Some "/opt/pw/lib64"
       /\ environ s' !! "PIPEWIRE_MODULE_DIR"
          = Some "/opt/pw/lib64/pipewire-0.3"
       /\ environ s' !! "PIPEWIRE_RUNTIME_DIR" = Some "/tmp"
       /\ environ s' !! "PATH" = Some "/usr/bin:/opt/pw/bin".
Proof.
  split; [reflexivity |].
  destruct (configure_sets_table "/opt/pw" "/usr/bin" (start demo_env) eq_refl)
    as (s' & Hrun & Hall & Hlit).
  destruct (Hlit eq_refl eq_refl) as (H1 & _ & H3 & _ & H5 & _).
  destruct Hall as (_ & _ & _ & _ & H4 & _).
  exists s'. repeat split; assumption.
Defined.

(** C5: two calls of the configure operation with the same root: every
    key other than [PATH] has after the second call the value it had
    after the first, while [PATH] has the binary directory appended, with
    a [:] in front, once per call, so that after the second call it ends
    in two copies of the same segment. *)
Theorem configure_twice (R old_path : string) (s : process) :
  environ s !! "PATH" = Some old_path ->
  exists s1 s2,
    _configure_pipewire_paths R s = (Ok tt, s1)
    /\ _configure_pipewire_paths R s1 = (Ok tt, s2)
    /\ (forall k, k <> "PATH" -> environ s2 !! k = environ s1 !! k)
    /\ environ s1 !! "PATH" = Some (old_path +:+ ":" +:+ join R ["bin"])
    /\ environ s2 !! "PATH"
       = Some ((old_path +:+ ":" +:+ join R ["bin"]) +:+ ":" +:+ join R ["bin"])
    /\ environ s2 !! "PATH" <> environ s1 !! "PATH".
Proof.
  intros HP.
  pose proof (configure_ok R old_path s HP) as H1.
  set (s1 := {| environ := after_all R old_path (environ s);
                trace := trace s; children := children s |}) in *.
  assert (HP1 : environ s1 !! "PATH"
                = Some (old_path +:+ ":" +:+ join R ["bin"]))
    by apply after_all_PATH.
  pose proof (configure_ok R _ s1 HP1) as H2.
  eexists _, _. split; [exact H1 |]. split; [exact H2 |].
  cbn [environ]. split; [| split; [exact HP1 | split]].
  - intros k Hk. unfold s1. cbn [environ]. now apply after_all_again.
  - apply after_all_PATH.
  - rewrite after_all_PATH, HP1. intros E. injection E as E.
    apply (f_equal String.length) in E.
    rewrite !string_length_append in E. cbn [String.length] in E. lia.
Qed.

Lemma configure_twice_witness :
  environ (start demo_env) !! "PATH" = Some "/usr/bin"
  /\ exists s1 s2,
       _configure_pipewire_paths "/opt/pw" (start demo_env) = (Ok tt, s1)
       /\ _configure_pipewire_paths "/opt/pw" s1 = (Ok tt, s2)
       /\ environ s2 !! "LD_LIBRARY_PATH" = environ s1 !! "LD_LIBRARY_PATH"
       /\ environ s1 !! "PATH" = Some "/usr/bin:/opt/pw/bin"
       /\ environ s2 !! "PATH" = Some "/usr/bin:/opt/pw/bin:/opt/pw/bin".
Proof.
  split; [reflexivity |].
  destruct (configure_twice "/opt/pw" "/usr/bin" (start demo_env) eq_refl)
    as (s1 & s2 & H1 & H2 & Hsame & HP1 & HP2 & _).
  exists s1, s2. repeat split; try assumption.
  apply Hsame. discriminate.
Defined.

(** C8: the configure operation touches the nine keys of the table and
    nothing else: whatever the inherited environment and the root, and
    whether the operation returns or raises, every other key is bound
    afterwards exactly as it was before, so no other key is changed,
    removed or added. *)
Theorem configure_frame (R k : string) (s : process) :
  k ∉ config_keys ->
  environ (snd (_configure_pipewire_paths R s)) !! k = environ s !! k.
Proof.
  intros Hk. destruct (environ s !! "PATH") as [old_path|] eqn:HP.
  - rewrite (configure_ok R old_path s HP). cbn [snd environ].
    now apply after_all_other.
  - rewrite (configure_raise R s HP). cbn [snd environ].
    now apply before_path_other.
Qed.

Lemma configure_frame_witness :
  ("HOME" ∉ config_keys)
  /\ ("DISPLAY" ∉ config_keys)
  /\ environ (snd (_configure_pipewire_paths "/opt/pw" (start demo_env)))
     !! "HOME" = Some "/home/dev"
  /\ environ (snd (_configure_pipewire_paths "/opt/pw" (start demo_env)))
     !! "DISPLAY" = None.
Proof.
  assert (H1 : "HOME" ∉ config_keys)
    by (unfold config_keys; rewrite !not_elem_of_cons;
        repeat split; try discriminate; apply not_elem_of_nil).
  assert (H2 : "DISPLAY" ∉ config_keys)
    by (unfold config_keys; rewrite !not_elem_of_cons;
        repeat split; try discriminate; apply not_elem_of_nil).
  split; [exact H1 |]. split; [exact H2 |]. split.
  - rewrite (configure_frame "/opt/pw" "HOME" (start demo_env) H1).
    reflexivity.
  - rewrite (configure_frame "/opt/pw" "DISPLAY" (start demo_env) H2).
    reflexivity.
Defined.

(** C9: without a [PATH] in the inherited environment the configure
    operation raises [KeyError] for that key at the read of the old
    value; by then [LD_LIBRARY_PATH], [PIPEWIRE_CONFIG_PREFIX],
    [PIPEWIRE_MODULE_DIR], [SPA_PLUGIN_DIR] and [PIPEWIRE_RUNTIME_DIR] have
    been set, and [PATH] and the three [WIREPLUMBER_] keys have not been
    touched.  With a [PATH] it returns without error. *)
Theorem configure_needs_PATH (R : string) (s : process) :
  (environ s !! "PATH" = None ->
   exists s',
     _configure_pipewire_paths R s = (Raise (KeyError "PATH"), s')
     /\ environ s' !! "LD_LIBRARY_PATH" = Some (join R ["lib64"])
     /\ environ s' !! "PIPEWIRE_CONFIG_PREFIX"
        = Some (join R ["share"; "pipewire"])
     /\ environ s' !! "PIPEWIRE_MODULE_DIR"
        = Some (join R ["lib64"; "pipewire-0.3"])
     /\ environ s' !! "SPA_PLUGIN_DIR" = Some (join R ["lib64"; "spa-0.2"])
     /\ environ s' !! "PIPEWIRE_RUNTIME_DIR" = Some "/tmp"
     /\ environ s' !! "PATH" = None
     /\ environ s' !! "WIREPLUMBER_CONFIG_DIR"
        = environ s !! "WIREPLUMBER_CONFIG_DIR"
     /\ environ s' !! "WIREPLUMBER_DATA_DIR"
        = environ s !! "WIREPLUMBER_DATA_DIR"
     /\ environ s' !! "WIREPLUMBER_MODULE_DIR"
        = environ s !! "WIREPLUMBER_MODULE_DIR")
  /\ (is_Some (environ s !! "PATH") ->
      exists s', _configure_pipewire_paths R s = (Ok tt, s')).
Proof.
  split.
  - intros HP. eexists. split; [apply (configure_raise R s HP) |].
    cbn [environ]. repeat split; look; try reflexivity. exact HP.
  - intros [old_path HP]. eexists. apply (configure_ok R old_path s HP).
Qed.

Lemma configure_needs_PATH_witness :
  (environ (start no_path_env) !! "PATH" = None
   /\ exists s',
        _configure_pipewire_paths "/opt/pw" (start no_path_env)
        = (Raise (KeyError "PATH"), s')
        /\ environ s' !! "PIPEWIRE_RUNTIME_DIR" = Some "/tmp"
        /\ environ s' !! "PATH" = None)
  /\ (is_Some (environ (start demo_env) !! "PATH")
      /\ exists s',
           _configure_pipewire_paths "/opt/pw" (start demo_env) = (Ok tt, s')).
Proof.
  destruct (configure_needs_PATH "/opt/pw" (start no_path_env)) as [Hraise _].
  destruct (configure_needs_PATH "/opt/pw" (start demo_env)) as [_ Hok].
  split; split.
  - reflexivity.
  - destruct (Hraise eq_refl) as (s' & Hrun & _ & _ & _ & _ & H5 & H6 & _).
    exists s'. repeat split; assumption.
  - exists "/usr/bin". reflexivity.
  - apply Hok. exists "/usr/bin". reflexivity.
Defined.

End ConfigureProperties.

(** ** The installation directory *)

Section ResolveProperties.

Import PosixPath.

Lemma join_plain_three (path a b c : string) :
  is_empty path = false -> endswith_sep path = false ->
  startswith_sep a = false -> is_empty a = false -> endswith_sep a = false ->
  startswith_sep b = false -> is_empty b = false -> endswith_sep b = false ->
  startswith_sep c = false ->
  join path [a; b; c] = path +:+ String sep a +:+ String sep b +:+ String sep c.
Proof.
  intros H1 H2 Ha1 Ha2 Ha3 Hb1 Hb2 Hb3 Hc.
  change (join path [a; b; c]) with (join_step (join path [a; b]) c).
  assert (K : is_empty (join path [a; b]) = false
              /\ endswith_sep (join path [a; b]) = false)
    by (apply (join_step_keeps (join_step path a) b Hb2 Hb3)).
  destruct K as [K1 K2].
  rewrite (join_step_plain _ c K1 K2 Hc).
  rewrite (join_plain_two path a b H1 H2 Ha1 Ha2 Ha3 Hb1).
  rewrite !append_assoc. now app_norm.
Qed.

(** Whatever the location of the script, the directory computed from it is
    not empty and has no trailing separator. *)
Lemma pipewire_dir_plain (h : host) :
  is_empty (_get_pipewire_dir h) = false
  /\ endswith_sep (_get_pipewire_dir h) = false.
Proof.
  unfold _get_pipewire_dir, join. cbn [fold_left].
  now apply join_step_keeps.
Qed.

(** C6: the resolve operation has no argument; its result is determined
    by the location of the script.  When the script is the entry [script]
    of the directory [D] (its real path is [D] joined with [script]) the
    result is the parent of [D] joined with [third_party], [pipewire] and
    [linux-amd64]; when that parent is not empty and has no trailing
    separator this is the string
    [dirname(D)/third_party/pipewire/linux-amd64]. *)
Theorem get_pipewire_dir_location (h : host) (D script : string) :
  no_sep script = true ->
  endswith_sep D = false \/ all_sep D = true ->
  realpath h (script_file h) = join D [script] ->
  _get_pipewire_dir h
  = join (dirname D) ["third_party"; "pipewire"; "linux-amd64"]
  /\ (is_empty (dirname D) = false -> endswith_sep (dirname D) = false ->
      _get_pipewire_dir h
      = dirname D +:+ "/third_party/pipewire/linux-amd64").
Proof.
  intros Hs HD Hreal.
  assert (E : _get_pipewire_dir h
              = join (dirname D) ["third_party"; "pipewire"; "linux-amd64"]).
  { unfold _get_pipewire_dir. rewrite Hreal.
    now rewrite (dirname_join D script Hs HD). }
  split; [exact E |].
  intros H1 H2. rewrite E.
  now rewrite (join_plain_three _ "third_party" "pipewire" "linux-amd64" H1 H2).
Qed.

Lemma get_pipewire_dir_location_witness :
  no_sep "configure_pipewire.py" = true
  /\ (endswith_sep "/src/tools_webrtc" = false
      \/ all_sep "/src/tools_webrtc" = true)
  /\ realpath demo_host (script_file demo_host)
     = join "/src/tools_webrtc" ["configure_pipewire.py"]
  /\ _get_pipewire_dir demo_host = "/src/third_party/pipewire/linux-amd64".
Proof.
  assert (H1 : no_sep "configure_pipewire.py" = true) by reflexivity.
  assert (H2 : endswith_sep "/src/tools_webrtc" = false
               \/ all_sep "/src/tools_webrtc" = true) by (left; reflexivity).
  assert (H3 : realpath demo_host (script_file demo_host)
               = join "/src/tools_webrtc" ["configure_pipewire.py"])
    by reflexivity.
  split; [exact H1 |]. split; [exact H2 |]. split; [exact H3 |].
  destruct (get_pipewire_dir_location demo_host "/src/tools_webrtc"
              "configure_pipewire.py" H1 H2 H3) as [_ Hlit].
  exact (Hlit eq_refl eq_refl).
Defined.

End ResolveProperties.

(** ** The launcher *)

Section MainProperties.

Import PosixPath.

(** C3: when the computed installation directory does not exist, [main]
    prints one line that names it, returns 1, and creates no child: the
    print is the only effect of the run and the count of children is what
    it was. *)
Theorem main_missing_root (h : host) (s : process) :
  isdir h (_get_pipewire_dir h) = false ->
  exists s',
    main h s = (Ok 1, s')
    /\ trace s'
       = (trace s
          ++ [Print ("configure-pipewire: Couldn't find directory "
                     +:+ _get_pipewire_dir h)])%list
    /\ children s' = children s
    /\ (forall pid args out env, Spawn pid args out env ∈ trace s' ->
        Spawn pid args out env ∈ trace s).
Proof.
  intros H. eexists. split; [apply (main_missing h s H) |].
  cbn [trace children]. repeat split.
  intros pid args out env Hin. apply elem_of_app in Hin as [Hin | Hin].
  - exact Hin.
  - apply list_elem_of_singleton in Hin. discriminate.
Qed.

Lemma main_missing_root_witness :
  isdir bare_host (_get_pipewire_dir bare_host) = false
  /\ exists s',
       main bare_host (start demo_env) = (Ok 1, s')
       /\ trace s'
          = [Print "configure-pipewire: Couldn't find directory /src/third_party/pipewire/linux-amd64"]
       /\ children s' = 0%nat.
Proof.
  split; [reflexivity |].
  destruct (main_missing_root bare_host (start demo_env) eq_refl)
    as (s' & Hrun & Htrace & Hchildren & _).
  exists s'. repeat split; assumption.
Defined.

(** C10: on the same path the environment is not touched: the state in
    which [main] returns 1 has the environment it started with, so no key
    has been added, removed or changed. *)
Theorem main_missing_root_keeps_environ (h : host) (s : process) :
  isdir h (_get_pipewire_dir h) = false ->
  fst (main h s) = Ok 1 /\ environ (snd (main h s)) = environ s.
Proof. intros H. rewrite (main_missing h s H). split; reflexivity. Qed.

Lemma main_missing_root_keeps_environ_witness :
  isdir bare_host (_get_pipewire_dir bare_host) = false
  /\ fst (main bare_host (start demo_env)) = Ok 1
  /\ environ (snd (main bare_host (start demo_env))) = demo_env.
Proof.
  split; [reflexivity |].
  exact (main_missing_root_keeps_environ bare_host (start demo_env) eq_refl).
Defined.

(** Membership of an event in an explicit trace, by cases. *)
Ltac trace_cases :=
  repeat match goal with
         | H : _ ∈ [] |- _ => apply elem_of_nil in H; contradiction
         | H : _ ∈ _ :: _ |- _ => apply elem_of_cons in H as [H | H]
         | H : Wait _ _ = Wait _ _ |- _ => injection H as ? ?; subst
         | H : @eq event _ _ |- _ => discriminate H
         end.

(** C2: in a run in which the installation directory exists and the
    command given on the command line was executed and reaped with status
    [N], [main] returns [N] itself, whatever [N] is (0, a failure code
    between 1 and 255, or any other return code). *)
Theorem main_returns_command_status
  (h : host) (env : gmap string string) (pid : nat) (N : Z) :
  isdir h (_get_pipewire_dir h) = true ->
  Wait pid N ∈ trace (snd (main h (start env))) ->
  fst (main h (start env)) = Ok N.
Proof.
  intros Hd Hw. destruct (env !! "PATH") as [old_path|] eqn:HP.
  - pose proof (main_configured h (start env) old_path Hd HP) as Hm.
    cbv zeta in Hm. cbn [start environ trace children app] in Hm.
    rewrite Hm in Hw |- *. clear Hm.
    destruct (can_exec h ["pipewire"] _);
      [destruct (can_exec h ["wireplumber"] _);
       [destruct (drop 1 (argv h)) as [|prog rest];
        [| destruct (can_exec h (prog :: rest) _)] |] |];
      cbn [snd fst trace app] in Hw |- *; trace_cases.
    reflexivity.
  - rewrite (main_no_PATH h (start env) Hd HP) in Hw.
    cbn [snd trace start] in Hw. trace_cases.
Qed.

Lemma main_returns_command_status_witness :
  isdir demo_host (_get_pipewire_dir demo_host) = true
  /\ Wait 2 3 ∈ trace (snd (main demo_host (start demo_env)))
  /\ fst (main demo_host (start demo_env)) = Ok 3.
Proof.
  assert (Hd : isdir demo_host (_get_pipewire_dir demo_host) = true)
    by reflexivity.
  assert (Hw : Wait 2 3 ∈ trace (snd (main demo_host (start demo_env)))).
  { vm_compute. do 3 apply list_elem_of_further. apply list_elem_of_here. }
  split; [exact Hd |]. split; [exact Hw |].
  exact (main_returns_command_status demo_host demo_env 2 3 Hd Hw).
Defined.

(** C4: in every run in which the installation directory exists and
    [main] returns normally (with whatever status), the effects of the run
    are exactly these, in this order: pipewire is started, wireplumber is
    started, the command is started and reaped, wireplumber is sent the
    terminate signal, pipewire is sent the terminate signal.  So each
    helper is signalled once, with [SIGTERM] and never [SIGKILL], the one
    started last first, and only after the command has been reaped. *)
Theorem main_terminates_helpers
  (h : host) (env : gmap string string) (v : Z) :
  isdir h (_get_pipewire_dir h) = true ->
  fst (main h (start env)) = Ok v ->
  exists E,
    environ (snd (main h (start env))) = E
    /\ trace (snd (main h (start env)))
       = [Spawn 0 ["pipewire"] None E;
          Spawn 1 ["wireplumber"] None E;
          Spawn 2 (drop 1 (argv h)) None E;
          Wait 2 v;
          Signal 1 SIGTERM;
          Signal 0 SIGTERM]
    /\ (forall pid, Signal pid SIGKILL ∉ trace (snd (main h (start env)))).
Proof.
  intros Hd Hv. destruct (env !! "PATH") as [old_path|] eqn:HP.
  - pose proof (main_configured h (start env) old_path Hd HP) as Hm.
    cbv zeta in Hm. cbn [start environ trace children app] in Hm.
    rewrite Hm in Hv |- *. clear Hm.
    destruct (can_exec h ["pipewire"] _);
      [destruct (can_exec h ["wireplumber"] _);
       [destruct (drop 1 (argv h)) as [|prog rest];
        [| destruct (can_exec h (prog :: rest) _)] |] |];
      cbn [fst] in Hv; try discriminate Hv.
    injection Hv as <-. eexists. cbn [snd environ trace app].
    split; [reflexivity |]. split; [reflexivity |].
    intros pid Hin. trace_cases.
  - rewrite (main_no_PATH h (start env) Hd HP) in Hv. discriminate Hv.
Qed.

Lemma main_terminates_helpers_witness :
  isdir demo_host (_get_pipewire_dir demo_host) = true
  /\ fst (main demo_host (start demo_env)) = Ok 3
  /\ exists E,
       trace (snd (main demo_host (start demo_env)))
       = [Spawn 0 ["pipewire"] None E;
          Spawn 1 ["wireplumber"] None E;
          Spawn 2 ["run_tests"; "--fast"] None E;
          Wait 2 3;
          Signal 1 SIGTERM;
          Signal 0 SIGTERM].
Proof.
  assert (Hd : isdir demo_host (_get_pipewire_dir demo_host) = true)
    by reflexivity.
  assert (Hv : fst (main demo_host (start demo_env)) = Ok 3)
    by (vm_compute; reflexivity).
  split; [exact Hd |]. split; [exact Hv |].
  destruct (main_terminates_helpers demo_host demo_env 3 Hd Hv)
    as (E & _ & Htrace & _).
  exists E. exact Htrace.
Defined.

(** C7: when the installation directory exists, the environment has a
    [PATH] and the two helpers can be executed, [main] first configures
    the environment and then creates two children before anything else:
    [pipewire] and then [wireplumber], each by its bare name with no
    argument, each with [stdout=None] (the launcher's own standard
    output), each with the configured environment.  The only other child
    of the run, if any, is the command, which comes after both. *)
Theorem main_starts_helpers
  (h : host) (env : gmap string string) (old_path : string) :
  isdir h (_get_pipewire_dir h) = true ->
  env !! "PATH" = Some old_path ->
  can_exec h ["pipewire"] (launch_env h old_path env) = true ->
  can_exec h ["wireplumber"] (launch_env h old_path env) = true ->
  exists s1 rest,
    _configure_pipewire_paths (_get_pipewire_dir h) (start env) = (Ok tt, s1)
    /\ environ s1 = launch_env h old_path env
    /\ trace (snd (main h (start env)))
       = Spawn 0 ["pipewire"] None (environ s1)
         :: Spawn 1 ["wireplumber"] None (environ s1)
         :: rest
    /\ (rest = []
        \/ exists rc,
             rest = [Spawn 2 (drop 1 (argv h)) None (environ s1);
                     Wait 2 rc;
                     Signal 1 SIGTERM;
                     Signal 0 SIGTERM]).
Proof.
  intros Hd HP Hp Hw.
  pose proof (main_configured h (start env) old_path Hd HP) as Hm.
  cbv zeta in Hm. cbn [start environ trace children app] in Hm.
  rewrite Hp, Hw in Hm. rewrite Hm. clear Hm.
  pose proof (configure_ok (_get_pipewire_dir h) old_path (start env) HP)
    as Hc.
  destruct (drop 1 (argv h)) as [|prog rest];
    [| destruct (can_exec h (prog :: rest) _)];
    eexists _, _; (split; [exact Hc |]);
    cbn [environ start snd trace app];
    (split; [reflexivity |]); (split; [reflexivity |]).
  - now left.
  - right. eexists. reflexivity.
  - now left.
Qed.

Lemma main_starts_helpers_witness :
  isdir demo_host (_get_pipewire_dir demo_host) = true
  /\ demo_env !! "PATH" = Some "/usr/bin"
  /\ exists s1 rest,
       _configure_pipewire_paths (_get_pipewire_dir demo_host) (start demo_env)
       = (Ok tt, s1)
       /\ trace (snd (main demo_host (start demo_env)))
          = Spawn 0 ["pipewire"] None (environ s1)
            :: Spawn 1 ["wireplumber"] None (environ s1)
            :: rest.
Proof.
  split; [reflexivity |]. split; [reflexivity |].
  destruct (main_starts_helpers demo_host demo_env "/usr/bin"
              eq_refl eq_refl eq_refl eq_refl)
    as (s1 & rest & Hrun & _ & Htrace & _).
  exists s1, rest. split; [exact Hrun | exact Htrace].
Defined.

End MainProperties.

(** ** Further properties of the configure operation *)

Section ConfigureMore.

Import PosixPath.

(** The overlay written out for a root that is not empty and has no
    trailing separator. *)
Lemma before_path_literal (R : string) (env : gmap string string) :
  is_empty R = false -> endswith_sep R = false ->
  before_path R env !! "LD_LIBRARY_PATH" = Some (R +:+ "/lib64")
  /\ before_path R env !! "PIPEWIRE_CONFIG_PREFIX"
     = Some (R +:+ "/share/pipewire")
  /\ before_path R env !! "PIPEWIRE_MODULE_DIR"
     = Some (R +:+ "/lib64/pipewire-0.3")
  /\ before_path R env !! "SPA_PLUGIN_DIR" = Some (R +:+ "/lib64/spa-0.2")
  /\ before_path R env !! "PIPEWIRE_RUNTIME_DIR" = Some "/tmp".
Proof.
  intros He Hs.
  assert (Hjoin : forall a b, join (join R [a]) [b] = join R [a; b])
    by reflexivity.
  repeat split; look; rewrite ?Hjoin;
    try first [ rewrite join_plain_one by (assumption || reflexivity)
              | rewrite join_plain_two by (assumption || reflexivity) ];
    reflexivity.
Qed.

Lemma after_all_literal (R old_path : string) (env : gmap string string) :
  is_empty R = false -> endswith_sep R = false ->
  after_all R old_path env !! "LD_LIBRARY_PATH" = Some (R +:+ "/lib64")
  /\ after_all R old_path env !! "PIPEWIRE_CONFIG_PREFIX"
     = Some (R +:+ "/share/pipewire")
  /\ after_all R old_path env !! "PIPEWIRE_MODULE_DIR"
     = Some (R +:+ "/lib64/pipewire-0.3")
  /\ after_all R old_path env !! "SPA_PLUGIN_DIR"
     = Some (R +:+ "/lib64/spa-0.2")
  /\ after_all R old_path env !! "PIPEWIRE_RUNTIME_DIR" = Some "/tmp"
  /\ after_all R old_path env !! "PATH"
     = Some (old_path +:+ ":" +:+ R +:+ "/bin")
  /\ after_all R old_path env !! "WIREPLUMBER_CONFIG_DIR"
     = Some (R +:+ "/share/wireplumber")
  /\ after_all R old_path env !! "WIREPLUMBER_DATA_DIR"
     = Some (R +:+ "/share/wireplumber")
  /\ after_all R old_path env !! "WIREPLUMBER_MODULE_DIR"
     = Some (R +:+ "/lib64/wireplumber-0.5").
Proof.
  intros He Hs.
  assert (Hjoin : forall a b, join (join R [a]) [b] = join R [a; b])
    by reflexivity.
  repeat split; look; rewrite ?Hjoin;
    try first [ rewrite join_plain_one by (assumption || reflexivity)
              | rewrite join_plain_two by (assumption || reflexivity) ];
    reflexivity.
Qed.

(** X1: the configure operation only writes the environment: whether it
    returns or raises, it has printed nothing, created no child, waited
    for none and signalled none. *)
Theorem configure_only_writes_environ (R : string) (s : process) :
  trace (snd (_configure_pipewire_paths R s)) = trace s
  /\ children (snd (_configure_pipewire_paths R s)) = children s.
Proof.
  destruct (environ s !! "PATH") as [old_path|] eqn:HP.
  - rewrite (configure_ok R old_path s HP). split; reflexivity.
  - rewrite (configure_raise R s HP). split; reflexivity.
Qed.

(** X2: what the eight keys other than [PATH] hold after the configure
    operation depends on the root only, not on the inherited environment:
    an inherited [LD_LIBRARY_PATH] (or any other of the eight) is
    replaced, never extended. *)
Theorem configure_discards_inherited (R k : string) (s1 s2 : process) :
  is_Some (environ s1 !! "PATH") ->
  is_Some (environ s2 !! "PATH") ->
  k ∈ config_keys ->
  k <> "PATH" ->
  environ (snd (_configure_pipewire_paths R s1)) !! k
  = environ (snd (_configure_pipewire_paths R s2)) !! k
  /\ is_Some (environ (snd (_configure_pipewire_paths R s1)) !! k).
Proof.
  intros [p1 H1] [p2 H2] Hk Hne.
  rewrite (configure_ok R p1 s1 H1), (configure_ok R p2 s2 H2).
  cbn [snd environ]. unfold config_keys in Hk.
  repeat (apply elem_of_cons in Hk as [Hk | Hk];
          [subst k; first [congruence | split; [now look | look; eauto]] |]).
  now apply elem_of_nil in Hk.
Qed.

Lemma configure_discards_inherited_witness :
  is_Some (environ (start demo_env) !! "PATH")
  /\ is_Some (environ (start (<["LD_LIBRARY_PATH" := "/usr/lib"]> demo_env))
              !! "PATH")
  /\ environ (snd (_configure_pipewire_paths "/opt/pw"
                     (start (<["LD_LIBRARY_PATH" := "/usr/lib"]> demo_env))))
     !! "LD_LIBRARY_PATH"
     = environ (snd (_configure_pipewire_paths "/opt/pw" (start demo_env)))
       !! "LD_LIBRARY_PATH".
Proof.
  assert (H1 : is_Some (environ (start demo_env) !! "PATH"))
    by (exists "/usr/bin"; reflexivity).
  assert (H2 : is_Some (environ (start (<["LD_LIBRARY_PATH" := "/usr/lib"]>
                                          demo_env)) !! "PATH"))
    by (exists "/usr/bin"; reflexivity).
  assert (Hk : "LD_LIBRARY_PATH" ∈ config_keys) by apply list_elem_of_here.
  split; [exact H1 |]. split; [exact H2 |].
  destruct (configure_discards_inherited "/opt/pw" "LD_LIBRARY_PATH"
              (start (<["LD_LIBRARY_PATH" := "/usr/lib"]> demo_env))
              (start demo_env) H2 H1 Hk) as [Heq _]; [discriminate |].
  exact Heq.
Defined.

Lemma append_empty_r (a : string) : a +:+ "" = a.
Proof.
  induction a as [|x a IH]; app_norm; [reflexivity | now rewrite IH].
Qed.

(** Repeated calls keep the trace and the child count, and append one
    segment to [PATH] each. *)
Lemma repeat_call_configure (R : string) (n : nat) :
  forall (old_path : string) (s : process),
    environ s !! "PATH" = Some old_path ->
    exists s',
      repeat_call (S n) (_configure_pipewire_paths R) s = (Ok tt, s')
      /\ trace s' = trace s
      /\ children s' = children s
      /\ environ s' !! "PATH"
         = Some (old_path +:+ segments (S n) (":" +:+ join R ["bin"]))
      /\ (forall k, k <> "PATH" ->
          environ s' !! k = after_all R old_path (environ s) !! k).
Proof.
  induction n as [|n IH]; intros old_path s HP.
  - eexists. cbn [repeat_call]. unfold mbind, py_bind.
    rewrite (configure_ok R old_path s HP). split; [reflexivity |].
    cbn [environ trace children segments]. repeat split.
    rewrite after_all_PATH. now rewrite append_empty_r.
  - pose proof (configure_ok R old_path s HP) as H1.
    set (s1 := {| environ := after_all R old_path (environ s);
                  trace := trace s; children := children s |}) in *.
    assert (HP1 : environ s1 !! "PATH"
                  = Some (old_path +:+ ":" +:+ join R ["bin"]))
      by apply after_all_PATH.
    destruct (IH _ s1 HP1) as (s' & Hrun & Ht & Hc & Hpath & Hother).
    exists s'. split.
    + change (repeat_call (S (S n)) (_configure_pipewire_paths R) s)
        with (py_bind _ _
                (fun _ => repeat_call (S n) (_configure_pipewire_paths R))
                (_configure_pipewire_paths R) s).
      unfold py_bind at 1. rewrite H1. exact Hrun.
    + split; [exact Ht |]. split; [exact Hc |]. split.
      * rewrite Hpath. f_equal.
        change (segments (S (S n)) (":" +:+ join R ["bin"]))
          with ((":" +:+ join R ["bin"])
                +:+ segments (S n) (":" +:+ join R ["bin"])).
        now rewrite <- !append_assoc.
      * intros k Hk. rewrite (Hother k Hk). unfold s1. cbn [environ].
        now apply after_all_again.
Qed.

(** X3: [n] calls of the configure operation in a row, [n] at least one,
    all return normally; [PATH] ends up as the inherited value followed by
    [n] copies of [:] and the binary directory, and every other key is
    bound as after a single call. *)
Theorem configure_repeated (R old_path : string) (n : nat) (s : process) :
  environ s !! "PATH" = Some old_path ->
  (0 < n)%nat ->
  exists s1 sn,
    _configure_pipewire_paths R s = (Ok tt, s1)
    /\ repeat_call n (_configure_pipewire_paths R) s = (Ok tt, sn)
    /\ environ sn !! "PATH"
       = Some (old_path +:+ segments n (":" +:+ join R ["bin"]))
    /\ (forall k, k <> "PATH" -> environ sn !! k = environ s1 !! k).
Proof.
  intros HP Hn. destruct n as [|n]; [lia |].
  destruct (repeat_call_configure R n old_path s HP)
    as (sn & Hrun & _ & _ & Hpath & Hother).
  eexists _, sn. split; [apply (configure_ok R old_path s HP) |].
  split; [exact Hrun |]. split; [exact Hpath |].
  cbn [environ]. exact Hother.
Qed.

Lemma configure_repeated_witness :
  environ (start demo_env) !! "PATH" = Some "/usr/bin"
  /\ (0 < 3)%nat
  /\ exists sn,
       repeat_call 3 (_configure_pipewire_paths "/opt/pw") (start demo_env)
       = (Ok tt, sn)
       /\ environ sn !! "PATH"
          = Some "/usr/bin:/opt/pw/bin:/opt/pw/bin:/opt/pw/bin".
Proof.
  assert (Hn : (0 < 3)%nat) by lia.
  split; [reflexivity |]. split; [exact Hn |].
  destruct (configure_repeated "/opt/pw" "/usr/bin" 3 (start demo_env)
              eq_refl Hn) as (s1 & sn & _ & Hrun & Hpath & _).
  exists sn. split; [exact Hrun | exact Hpath].
Defined.

End ConfigureMore.

(** ** Further properties of the installation directory *)

Section ResolveMore.

Import PosixPath.

Lemma no_sep_endswith (d : string) : no_sep d = true -> endswith_sep d = false.
Proof.
  induction d as [|c d IH]; [reflexivity |].
  cbn [no_sep]. intros H. apply andb_prop in H as [Hc Hd].
  apply negb_true_iff in Hc. destruct d as [|c' d'].
  - cbn. exact Hc.
  - rewrite endswith_sep_cons by reflexivity. now apply IH.
Qed.

(** X4: wherever the script is, the directory it computes is a prefix
    followed by [third_party/pipewire/linux-amd64], and the prefix is
    empty or ends in a separator: the result always names an entry
    [linux-amd64] of an entry [pipewire] of an entry [third_party], and
    never ends in a separator. *)
Theorem get_pipewire_dir_shape (h : host) :
  exists prefix,
    _get_pipewire_dir h = prefix +:+ "third_party/pipewire/linux-amd64"
    /\ (prefix = "" \/ endswith_sep prefix = true).
Proof.
  unfold _get_pipewire_dir.
  set (src := dirname (dirname (realpath h (script_file h)))).
  change (join src ["third_party"; "pipewire"; "linux-amd64"])
    with (join_step (join_step (join_step src "third_party") "pipewire")
            "linux-amd64").
  destruct (join_step_keeps src "third_party" eq_refl eq_refl) as [K1 K2].
  destruct (join_step_keeps (join_step src "third_party") "pipewire"
              eq_refl eq_refl) as [L1 L2].
  rewrite (join_step_plain _ "linux-amd64" L1 L2 eq_refl).
  rewrite (join_step_plain _ "pipewire" K1 K2 eq_refl).
  unfold join_step. cbn [startswith_sep].
  change (Ascii.eqb "t" sep) with false. cbv iota.
  destruct (is_empty src) eqn:He; [| destruct (endswith_sep src) eqn:Hs];
    cbn [orb]; cbv iota.
  - exists src. split; [| left; now apply is_empty_true].
    rewrite !append_assoc. now app_norm.
  - exists src. split; [| now right].
    rewrite !append_assoc. now app_norm.
  - exists (src +:+ String sep ""). split.
    + rewrite !append_assoc. now app_norm.
    + right. rewrite endswith_sep_append by reflexivity. reflexivity.
Qed.

(** X5: a script placed directly in the root directory and a script
    placed in a directory directly below it compute the same installation
    directory, [/third_party/pipewire/linux-amd64]: the parent of the root
    directory is the root directory. *)
Theorem get_pipewire_dir_near_root (h : host) (d script : string) :
  no_sep script = true ->
  no_sep d = true ->
  is_empty d = false ->
  realpath h (script_file h) = String sep script
  \/ realpath h (script_file h) = String sep d +:+ String sep script ->
  _get_pipewire_dir h = "/third_party/pipewire/linux-amd64".
Proof.
  intros Hs Hd He Hreal. unfold _get_pipewire_dir.
  assert (Hroot : forall x, no_sep x = true ->
                            dirname (String sep x) = String sep "").
  { intros x Hx. change (String sep x) with ("" +:+ String sep x).
    now rewrite (dirname_child "" x Hx). }
  destruct Hreal as [-> | ->].
  - rewrite (Hroot script Hs). reflexivity.
  - rewrite (dirname_child (String sep d) script Hs).
    assert (Hall : all_sep (String sep d) = false).
    { apply all_sep_endswith; [reflexivity |].
      rewrite endswith_sep_cons by exact He. now apply no_sep_endswith. }
    rewrite Hall, rstrip_id.
    + rewrite (Hroot d Hd). reflexivity.
    + rewrite endswith_sep_cons by exact He. now apply no_sep_endswith.
Qed.

Lemma get_pipewire_dir_near_root_witness :
  no_sep "configure_pipewire.py" = true
  /\ no_sep "src" = true
  /\ is_empty "src" = false
  /\ _get_pipewire_dir
       {| script_file := "configure_pipewire.py";
          argv := [];
          realpath := fun p => "/src/" +:+ p;
          isdir := fun _ => true;
          can_exec := fun _ _ => true;
          exit_status := fun _ _ => 0 |}
     = "/third_party/pipewire/linux-amd64".
Proof.
  split; [reflexivity |]. split; [reflexivity |]. split; [reflexivity |].
  apply (get_pipewire_dir_near_root _ "src" "configure_pipewire.py"
           eq_refl eq_refl eq_refl).
  right. reflexivity.
Defined.

End ResolveMore.

(** ** Further properties of the launcher *)

(** Membership of an event in an explicit trace, by cases, keeping what an
    equation between two events of the same kind says. *)
Ltac event_cases :=
  repeat match goal with
         | H : _ ∈ [] |- _ => apply elem_of_nil in H; contradiction
         | H : _ ∈ _ :: _ |- _ => apply elem_of_cons in H as [H | H]
         | H : Spawn _ _ _ _ = Spawn _ _ _ _ |- _ =>
             injection H as ? ? ? ?; subst
         | H : Signal _ _ = Signal _ _ |- _ => injection H as ? ?; subst
         | H : Wait _ _ = Wait _ _ |- _ => injection H as ? ?; subst
         | H : @eq event _ _ |- _ => discriminate H
         end.

(** Every run of [main] from a fresh interpreter is one of seven: the
    directory is missing; [PATH] is missing; pipewire, wireplumber or the
    command cannot be executed; there is no command; or all goes well. *)
Ltac run_cases h env :=
  let Hd := fresh "Hd" in
  let HP := fresh "HP" in
  let old_path := fresh "old_path" in
  let Hm := fresh "Hm" in
  destruct (isdir h (_get_pipewire_dir h)) eqn:Hd;
  [ destruct (env !! "PATH") as [old_path|] eqn:HP;
    [ pose proof (main_configured h (start env) old_path Hd HP) as Hm;
      cbv zeta in Hm; cbn [start environ trace children app] in Hm;
      rewrite Hm in *; clear Hm;
      destruct (can_exec h ["pipewire"] _) eqn:?;
      [ destruct (can_exec h ["wireplumber"] _) eqn:?;
        [ destruct (drop 1 (argv h)) as [|prog rest] eqn:?;
          [| destruct (can_exec h (prog :: rest) _) eqn:? ] |] |]
    | rewrite (main_no_PATH h (start env) Hd HP) in * ]
  | rewrite (main_missing h (start env) Hd) in * ];
  cbn [fst snd environ trace children start app] in *.

Section MainMore.

Import PosixPath.



(** X7: a run of [main] that raises signals nobody and waits for nobody:
    whatever helper it had started by then is left running. *)
Theorem main_raise_signals_nothing
  (h : host) (env : gmap string string) (e : exn) :
  fst (main h (start env)) = Raise e ->
  (forall pid sig, Signal pid sig ∉ trace (snd (main h (start env))))
  /\ (forall pid status, Wait pid status ∉ trace (snd (main h (start env)))).
Proof.
  intros He. run_cases h env; try discriminate He;
    split; intros ? ? Hin; event_cases.
Qed.

Lemma main_raise_signals_nothing_witness :
  fst (main no_wireplumber_host (start demo_env))
  = Raise (FileNotFoundError "wireplumber")
  /\ Signal 0 SIGTERM ∉ trace (snd (main no_wireplumber_host (start demo_env))).
Proof.
  assert (He : fst (main no_wireplumber_host (start demo_env))
               = Raise (FileNotFoundError "wireplumber"))
    by (vm_compute; reflexivity).
  split; [exact He |].
  exact (proj1 (main_raise_signals_nothing no_wireplumber_host demo_env _ He)
           0%nat SIGTERM).
Defined.



(** X9: when both helpers have been started and the command cannot be
    (the command line names none, or the program cannot be executed),
    [main] raises, and the two starts are the only effects of the run:
    neither helper is asked to terminate. *)
Theorem main_command_not_started
  (h : host) (env : gmap string string) (old_path : string) :
  isdir h (_get_pipewire_dir h) = true ->
  env !! "PATH" = Some old_path ->
  can_exec h ["pipewire"] (launch_env h old_path env) = true ->
  can_exec h ["wireplumber"] (launch_env h old_path env) = true ->
  drop 1 (argv h) = []
  \/ can_exec h (drop 1 (argv h)) (launch_env h old_path env) = false ->
  (exists e, fst (main h (start env)) = Raise e)
  /\ trace (snd (main h (start env)))
     = [Spawn 0 ["pipewire"] None (launch_env h old_path env);
        Spawn 1 ["wireplumber"] None (launch_env h old_path env)]
  /\ children (snd (main h (start env))) = 2%nat.
Proof.
  intros Hd HP Hp Hw Hc.
  pose proof (main_configured h (start env) old_path Hd HP) as Hm.
  cbv zeta in Hm. cbn [start environ trace children app] in Hm.
  rewrite Hp, Hw in Hm. rewrite Hm. clear Hm.
  destruct (drop 1 (argv h)) as [|prog rest].
  - split; [eexists; reflexivity |]. split; reflexivity.
  - destruct Hc as [Hc | Hc]; [discriminate Hc |]. rewrite Hc.
    split; [eexists; reflexivity |]. split; reflexivity.
Qed.

Lemma main_command_not_started_witness :
  isdir no_command_host (_get_pipewire_dir no_command_host) = true
  /\ demo_env !! "PATH" = Some "/usr/bin"
  /\ drop 1 (argv no_command_host) = []
  /\ (exists e, fst (main no_command_host (start demo_env)) = Raise e)
  /\ children (snd (main no_command_host (start demo_env))) = 2%nat.
Proof.
  split; [reflexivity |]. split; [reflexivity |]. split; [reflexivity |].
  destruct (main_command_not_started no_command_host demo_env "/usr/bin"
              eq_refl eq_refl eq_refl eq_refl (or_introl eq_refl))
    as (H1 & _ & H3).
  split; [exact H1 | exact H3].
Defined.

End MainMore.

Section MainEffects.

Import PosixPath.

(** X10: every child [main] creates, helper or command, in whatever run,
    is created with [stdout=None] and with the environment [main] ends
    with, in which the nine variables hold the paths below the
    installation directory [main] computed, written out: [PATH] is the
    inherited one followed by [:] and the directory's [bin]. *)
Theorem main_children_environment
  (h : host) (env : gmap string string)
  (pid : nat) (args : list string) (out : option redirect)
  (E : gmap string string) :
  Spawn pid args out E ∈ trace (snd (main h (start env))) ->
  out = None
  /\ E = environ (snd (main h (start env)))
  /\ exists old_path,
       env !! "PATH" = Some old_path
       /\ E !! "LD_LIBRARY_PATH" = Some (_get_pipewire_dir h +:+ "/lib64")
       /\ E !! "PIPEWIRE_CONFIG_PREFIX"
          = Some (_get_pipewire_dir h +:+ "/share/pipewire")
       /\ E !! "PIPEWIRE_MODULE_DIR"
          = Some (_get_pipewire_dir h +:+ "/lib64/pipewire-0.3")
       /\ E !! "SPA_PLUGIN_DIR"
          = Some (_get_pipewire_dir h +:+ "/lib64/spa-0.2")
       /\ E !! "PIPEWIRE_RUNTIME_DIR" = Some "/tmp"
       /\ E !! "PATH"
          = Some (old_path +:+ ":" +:+ _get_pipewire_dir h +:+ "/bin")
       /\ E !! "WIREPLUMBER_CONFIG_DIR"
          = Some (_get_pipewire_dir h +:+ "/share/wireplumber")
       /\ E !! "WIREPLUMBER_DATA_DIR"
          = Some (_get_pipewire_dir h +:+ "/share/wireplumber")
       /\ E !! "WIREPLUMBER_MODULE_DIR"
          = Some (_get_pipewire_dir h +:+ "/lib64/wireplumber-0.5").
Proof.
  intros Hin. destruct (pipewire_dir_plain h) as [P1 P2].
  run_cases h env; event_cases;
    (split; [reflexivity |]); (split; [reflexivity |]);
    exists old_path; (split; [reflexivity |]);
    apply (after_all_literal _ old_path env P1 P2).
Qed.

Lemma main_children_environment_witness :
  Spawn 2 ["run_tests"; "--fast"] None
    (environ (snd (main demo_host (start demo_env))))
  ∈ trace (snd (main demo_host (start demo_env)))
  /\ environ (snd (main demo_host (start demo_env))) !! "LD_LIBRARY_PATH"
     = Some "/src/third_party/pipewire/linux-amd64/lib64".
Proof.
  assert (Hin : Spawn 2 ["run_tests"; "--fast"] None
                  (environ (snd (main demo_host (start demo_env))))
                ∈ trace (snd (main demo_host (start demo_env)))).
  { vm_compute. do 2 apply list_elem_of_further. apply list_elem_of_here. }
  split; [exact Hin |].
  destruct (main_children_environment demo_host demo_env _ _ _ _ Hin)
    as (_ & _ & old_path & _ & H1 & _).
  exact H1.
Defined.

(** X11: the children of a run are numbered in the order of their
    creation, and which program has which number is fixed: child 0 is
    pipewire, child 1 is wireplumber, both without arguments, and child 2
    is the command, started with exactly the arguments that follow the
    script's name on the command line, which are then not empty. *)
Theorem main_children_identity
  (h : host) (env : gmap string string)
  (pid : nat) (args : list string) (out : option redirect)
  (E : gmap string string) :
  Spawn pid args out E ∈ trace (snd (main h (start env))) ->
  (pid = 0%nat /\ args = ["pipewire"])
  \/ (pid = 1%nat /\ args = ["wireplumber"])
  \/ (pid = 2%nat /\ args = drop 1 (argv h) /\ args <> []).
Proof.
  intros Hin. run_cases h env; event_cases;
    first [ left; split; reflexivity
          | right; left; split; reflexivity
          | right; right; repeat split; congruence ].
Qed.

Lemma main_children_identity_witness :
  Spawn 2 ["run_tests"; "--fast"] None
    (environ (snd (main demo_host (start demo_env))))
  ∈ trace (snd (main demo_host (start demo_env)))
  /\ ["run_tests"; "--fast"] = drop 1 (argv demo_host).
Proof.
  assert (Hin : Spawn 2 ["run_tests"; "--fast"] None
                  (environ (snd (main demo_host (start demo_env))))
                ∈ trace (snd (main demo_host (start demo_env)))).
  { vm_compute. do 2 apply list_elem_of_further. apply list_elem_of_here. }
  split; [exact Hin |].
  destruct (main_children_identity demo_host demo_env _ _ _ _ Hin)
    as [[H _] | [[H _] | (_ & H & _)]];
    [discriminate H | discriminate H | exact H].
Defined.

(** X12: whatever the run, a signal [main] sends is [SIGTERM] and goes to
    one of the two helpers it started itself, pipewire (child 0) or
    wireplumber (child 1), and the command has been reaped by then; the
    command itself is never signalled. *)
Theorem main_signals_only_helpers
  (h : host) (env : gmap string string) (pid : nat) (sig : signal) :
  Signal pid sig ∈ trace (snd (main h (start env))) ->
  sig = SIGTERM
  /\ (exists E,
        (pid = 0%nat
         /\ Spawn 0 ["pipewire"] None E ∈ trace (snd (main h (start env))))
        \/ (pid = 1%nat
            /\ Spawn 1 ["wireplumber"] None E
               ∈ trace (snd (main h (start env)))))
  /\ (exists status, Wait 2 status ∈ trace (snd (main h (start env)))).
Proof.
  intros Hin. run_cases h env; event_cases;
    (split; [reflexivity |]);
    (split;
     [ eexists;
       first [ left; split; [reflexivity | now apply list_elem_of_here]
             | right; split;
               [reflexivity
               | apply list_elem_of_further; now apply list_elem_of_here] ]
     | eexists; do 3 apply list_elem_of_further; apply list_elem_of_here ]).
Qed.

Lemma main_signals_only_helpers_witness :
  Signal 1 SIGTERM ∈ trace (snd (main demo_host (start demo_env)))
  /\ exists status,
       Wait 2 status ∈ trace (snd (main demo_host (start demo_env))).
Proof.
  assert (Hin : Signal 1 SIGTERM
                ∈ trace (snd (main demo_host (start demo_env)))).
  { vm_compute. do 4 apply list_elem_of_further. apply list_elem_of_here. }
  split; [exact Hin |].
  exact (proj2 (proj2 (main_signals_only_helpers demo_host demo_env _ _ Hin))).
Defined.

(** X13: once the installation directory has been found, [main] leaves
    the interpreter's environment modified in every case, also when it
    raises: [LD_LIBRARY_PATH], [PIPEWIRE_CONFIG_PREFIX],
    [PIPEWIRE_MODULE_DIR], [SPA_PLUGIN_DIR] and [PIPEWIRE_RUNTIME_DIR] hold
    the new values when the run ends; nothing is restored. *)
Theorem main_environment_not_restored (h : host) (env : gmap string string) :
  isdir h (_get_pipewire_dir h) = true ->
  environ (snd (main h (start env))) !! "LD_LIBRARY_PATH"
  = Some (_get_pipewire_dir h +:+ "/lib64")
  /\ environ (snd (main h (start env))) !! "PIPEWIRE_CONFIG_PREFIX"
     = Some (_get_pipewire_dir h +:+ "/share/pipewire")
  /\ environ (snd (main h (start env))) !! "PIPEWIRE_MODULE_DIR"
     = Some (_get_pipewire_dir h +:+ "/lib64/pipewire-0.3")
  /\ environ (snd (main h (start env))) !! "SPA_PLUGIN_DIR"
     = Some (_get_pipewire_dir h +:+ "/lib64/spa-0.2")
  /\ environ (snd (main h (start env))) !! "PIPEWIRE_RUNTIME_DIR"
     = Some "/tmp".
Proof.
  intros Hdir. destruct (pipewire_dir_plain h) as [P1 P2].
  run_cases h env; try discriminate Hdir;
    first [ apply (before_path_literal _ env P1 P2)
          | destruct (after_all_literal _ old_path env P1 P2)
              as (H1 & H2 & H3 & H4 & H5 & _);
            repeat split; assumption ].
Qed.

Lemma main_environment_not_restored_witness :
  isdir demo_host (_get_pipewire_dir demo_host) = true
  /\ fst (main demo_host (start no_path_env)) = Raise (KeyError "PATH")
  /\ environ (snd (main demo_host (start no_path_env))) !! "LD_LIBRARY_PATH"
     = Some "/src/third_party/pipewire/linux-amd64/lib64".
Proof.
  split; [reflexivity |]. split; [vm_compute; reflexivity |].
  exact (proj1 (main_environment_not_restored demo_host no_path_env eq_refl)).
Defined.

(** X14: in no run does [main] change, remove or add a key of the
    environment other than the nine of the table. *)
Theorem main_frame (h : host) (env : gmap string string) (k : string) :
  k ∉ config_keys ->
  environ (snd (main h (start env))) !! k = env !! k.
Proof.
  intros Hk. run_cases h env;
    first [ reflexivity
          | now apply after_all_other
          | now apply before_path_other ].
Qed.

Lemma main_frame_witness :
  ("HOME" ∉ config_keys)
  /\ environ (snd (main demo_host (start demo_env))) !! "HOME"
     = Some "/home/dev".
Proof.
  assert (Hk : "HOME" ∉ config_keys)
    by (unfold config_keys; rewrite !not_elem_of_cons;
        repeat split; try discriminate; apply not_elem_of_nil).
  split; [exact Hk |].
  rewrite (main_frame demo_host demo_env "HOME" Hk). reflexivity.
Defined.

End MainEffects.

(** ** The script run as a program *)

Section EntryPoint.

(** X15: when the command was run and reaped with return code [N], the
    status the launcher process ends with is [N] modulo 256: [N] itself
    for an exit status between 0 and 255, and [256 - k] for a command
    killed by signal [k] (return code [-k]), which is not the [128 + k] a
    shell would report. *)
Theorem run_as_main_command_status
  (h : host) (env : gmap string string) (pid : nat) (N : Z) :
  Wait pid N ∈ trace (snd (main h (start env))) ->
  fst (run_as_main h (start env)) = N mod 256
  /\ (0 <= N <= 255 -> fst (run_as_main h (start env)) = N)
  /\ (-255 <= N < 0 -> fst (run_as_main h (start env)) = 256 + N).
Proof.
  intros Hin. unfold run_as_main.
  run_cases h env; event_cases. cbn [fst].
  split; [reflexivity |]. split; intros HN.
  - apply Z.mod_small. lia.
  - rewrite <- (Z_mod_plus_full _ 1 256).
    rewrite Z.mod_small by lia. lia.
Qed.

Lemma run_as_main_command_status_witness :
  Wait 2 (-9) ∈ trace (snd (main killed_host (start demo_env)))
  /\ fst (run_as_main killed_host (start demo_env)) = 247.
Proof.
  assert (Hin : Wait 2 (-9) ∈ trace (snd (main killed_host (start demo_env)))).
  { vm_compute. do 3 apply list_elem_of_further. apply list_elem_of_here. }
  split; [exact Hin |].
  destruct (run_as_main_command_status killed_host demo_env 2 (-9) Hin)
    as (_ & _ & H).
  apply H. lia.
Defined.

(** X16: when no command was reaped in the run (the installation
    directory is missing, or [main] raised before or at the start of the
    command), the launcher process ends with status 1: the status does not
    tell these cases apart, nor from a command that exits with 1. *)
Theorem run_as_main_without_command (h : host) (env : gmap string string) :
  (forall pid N, Wait pid N ∉ trace (snd (main h (start env)))) ->
  fst (run_as_main h (start env)) = 1.
Proof.
  intros Hno. unfold run_as_main.
  run_cases h env; try reflexivity.
  exfalso. eapply Hno. do 3 apply list_elem_of_further.
  apply list_elem_of_here.
Qed.

Lemma run_as_main_without_command_witness :
  (forall pid N, Wait pid N ∉ trace (snd (main bare_host (start demo_env))))
  /\ fst (run_as_main bare_host (start demo_env)) = 1.
Proof.
  assert (Hno : forall pid N,
             Wait pid N ∉ trace (snd (main bare_host (start demo_env)))).
  { intros pid N Hin.
    rewrite (main_missing bare_host (start demo_env) eq_refl) in Hin.
    cbn [snd trace start app] in Hin. event_cases. }
  split; [exact Hno |].
  exact (run_as_main_without_command bare_host demo_env Hno).
Defined.

End EntryPoint.
